(** * Runtime configuration bootstrap of the Cronos x402 frontend

    A shallow embedding of the Redux slice [store/configSlice], of the
    accessors of [lib/globals.ts], of the hook [useCronosConfig] and of
    the provider tree of [providers.tsx] (the variant with [ConfigGate]),
    followed by the properties of the configuration state machine.

    Conventions of the embedding:
    - a TypeScript [string | undefined] is an [option string], a
      [number | undefined] an [option Z] (chain ids are integers; the
      only falsy number that [JSON.parse] can put there is [0]);
    - a function that may [throw new Error(msg)] returns a [Result]
      whose [Throw] carries the message of the error;
    - a React component is a function from the store state (what its
      [useSelector] calls read) and its props to the tree it renders. *)

From Stdlib Require Import String ZArith List Bool.
Import ListNotations.
Open Scope string_scope.
Open Scope Z_scope.

(** ** JavaScript truthiness and the [||] operator *)

Module Js.

(** [!!s] for a string: the empty string is falsy. *)
Definition truthy_string (s : string) : bool :=
  match s with
  | EmptyString => false
  | String _ _ => true
  end.

(** [!!n] for a number. *)
Definition truthy_number (n : Z) : bool := negb (n =? 0).

(** [!!x] for [x : string | undefined]. *)
Definition truthy_ostring (x : option string) : bool :=
  match x with
  | Some s => truthy_string s
  | None => false
  end.

(** [!!x] for [x : number | undefined]. *)
Definition truthy_onumber (x : option Z) : bool :=
  match x with
  | Some n => truthy_number n
  | None => false
  end.

(** [x || d] for [x : string | undefined] and [d : string]. *)
Definition or_string (x : option string) (d : string) : string :=
  match x with
  | Some s => if truthy_string s then s else d
  | None => d
  end.

(** [x || d] for [x : number | undefined] and [d : number]. *)
Definition or_number (x : option Z) (d : Z) : Z :=
  match x with
  | Some n => if truthy_number n then n else d
  | None => d
  end.


(** [msg.includes(part)]. *)
Definition includes (msg part : string) : bool :=
  match String.index 0 part msg with
  | Some _ => true
  | None => false
  end.

End Js.

(** ** Outcome of a function that may throw *)

Inductive Result (A : Type) : Type :=
| Return (value : A)
| Throw (message : string).

Arguments Return {A} value.
Arguments Throw {A} message.

(** ** store/configSlice *)

Module ConfigSlice.

(** [interface RuntimeConfig]: the nine fields, all required. *)
Module RuntimeConfig.

Record t : Type := Build {
  cronosApiBase : string;
  cronosFullNode : string;
  cronosRpc : string;
  cronosChainId : Z;
  cronosTestNetChainId : Z;
  mosaicApiBaseUrl : string;
  cronosLabsUrl : string;
  cronosExplorerUrl : string;
  cronosPositionBrokerUrl : string
}.

(** Every field is truthy: no empty URL, no zero chain id. *)
Definition truthy (c : t) : bool :=
  Js.truthy_string (cronosApiBase c) &&
  Js.truthy_string (cronosFullNode c) &&
  Js.truthy_string (cronosRpc c) &&
  Js.truthy_number (cronosChainId c) &&
  Js.truthy_number (cronosTestNetChainId c) &&
  Js.truthy_string (mosaicApiBaseUrl c) &&
  Js.truthy_string (cronosLabsUrl c) &&
  Js.truthy_string (cronosExplorerUrl c) &&
  Js.truthy_string (cronosPositionBrokerUrl c).

End RuntimeConfig.

(** The object that [res.json()] yields.  It is cast to [RuntimeConfig]
    without any validation, so at run time each field may be missing. *)
Module Payload.

Record t : Type := Build {
  cronosApiBase : option string;
  cronosFullNode : option string;
  cronosRpc : option string;
  cronosChainId : option Z;
  cronosTestNetChainId : option Z;
  mosaicApiBaseUrl : option string;
  cronosLabsUrl : option string;
  cronosExplorerUrl : option string;
  cronosPositionBrokerUrl : option string
}.

(** A payload that really has the shape of [RuntimeConfig]. *)
Definition of_config (c : RuntimeConfig.t) : t :=
  {| cronosApiBase := Some (RuntimeConfig.cronosApiBase c);
     cronosFullNode := Some (RuntimeConfig.cronosFullNode c);
     cronosRpc := Some (RuntimeConfig.cronosRpc c);
     cronosChainId := Some (RuntimeConfig.cronosChainId c);
     cronosTestNetChainId := Some (RuntimeConfig.cronosTestNetChainId c);
     mosaicApiBaseUrl := Some (RuntimeConfig.mosaicApiBaseUrl c);
     cronosLabsUrl := Some (RuntimeConfig.cronosLabsUrl c);
     cronosExplorerUrl := Some (RuntimeConfig.cronosExplorerUrl c);
     cronosPositionBrokerUrl :=
       Some (RuntimeConfig.cronosPositionBrokerUrl c) |}.


End Payload.

(** [interface ConfigState extends Partial<RuntimeConfig>]. *)
Record ConfigState : Type := mkConfigState {
  cronosApiBase : option string;
  cronosFullNode : option string;
  cronosRpc : option string;
  cronosChainId : option Z;
  cronosTestNetChainId : option Z;
  mosaicApiBaseUrl : option string;
  cronosLabsUrl : option string;
  cronosExplorerUrl : option string;
  cronosPositionBrokerUrl : option string;
  loaded : bool;
  error : option string
}.

(** [const initialState: ConfigState = { loaded: false }]. *)
Definition initialState : ConfigState :=
  {| cronosApiBase := None;
     cronosFullNode := None;
     cronosRpc := None;
     cronosChainId := None;
     cronosTestNetChainId := None;
     mosaicApiBaseUrl := None;
     cronosLabsUrl := None;
     cronosExplorerUrl := None;
     cronosPositionBrokerUrl := None;
     loaded := false;
     error := None |}.

(** The part of the serialized error of a rejected thunk that the slice
    reads: [action.error.message]. *)
Record SerializedError : Type := mkSerializedError {
  message : option string
}.

(** The actions that the thunk ["config/load"] dispatches.
    [FulfilledNull] is the fulfilled action whose payload is [null],
    the one value of [res.json()] on which reading a field throws. *)
Inductive Action : Type :=
| Pending
| Fulfilled (payload : Payload.t)
| Rejected (err : SerializedError)
| FulfilledNull.

(** What [res.json()] does: it throws (the body is not JSON), yields
    the parsed object, or yields [null] (the body is the JSON [null]).
    Any other body that is not an object reads like one without
    fields. *)
Inductive JsonOutcome : Type :=
| JsonThrows (e : SerializedError)
| JsonValue (payload : Payload.t)
| JsonNull.

(** What [fetch("/config.json", { cache: "no-store" })] does: it throws
    (transport failure) or yields a response with its [ok] flag. *)
Inductive FetchOutcome : Type :=
| FetchThrows (e : SerializedError)
| FetchResponds (ok : bool) (json : JsonOutcome).

(** The payload creator of [loadConfig] together with the completion
    action that [createAsyncThunk] dispatches for it: [fulfilled] with
    the returned value, [rejected] with the serialized thrown error. *)
Definition loadConfig (res : FetchOutcome) : Action :=
  match res with
  | FetchThrows e => Rejected e
  | FetchResponds ok json =>
      if negb ok
      then Rejected {| message := Some "Failed to load /config.json" |}
      else match json with
           | JsonThrows e => Rejected e
           | JsonValue payload => Fulfilled payload
           | JsonNull => FulfilledNull
           end
  end.

(** [configSlice.reducer]: the two cases of [extraReducers]; any other
    action leaves the state as it is.  On a [null] payload the
    fulfilled case throws a TypeError at [payload.cronosApiBase]: the
    draft, with its [loaded = true], is dropped and the store keeps
    the state it had (see [reducer_throws]). *)
Definition reducer (state : ConfigState) (action : Action) : ConfigState :=
  match action with
  | Fulfilled payload =>
      {| loaded := true;
         cronosApiBase := Payload.cronosApiBase payload;
         cronosFullNode := Payload.cronosFullNode payload;
         cronosRpc := Payload.cronosRpc payload;
         cronosChainId := Payload.cronosChainId payload;
         cronosTestNetChainId := Payload.cronosTestNetChainId payload;
         mosaicApiBaseUrl := Payload.mosaicApiBaseUrl payload;
         cronosLabsUrl := Payload.cronosLabsUrl payload;
         cronosExplorerUrl := Payload.cronosExplorerUrl payload;
         cronosPositionBrokerUrl := Payload.cronosPositionBrokerUrl payload;
         error := error state |}
  | Rejected err =>
      {| loaded := true;
         error := Some (Js.or_string (message err) "Config load failed");
         cronosApiBase := cronosApiBase state;
         cronosFullNode := cronosFullNode state;
         cronosRpc := cronosRpc state;
         cronosChainId := cronosChainId state;
         cronosTestNetChainId := cronosTestNetChainId state;
         mosaicApiBaseUrl := mosaicApiBaseUrl state;
         cronosLabsUrl := cronosLabsUrl state;
         cronosExplorerUrl := cronosExplorerUrl state;
         cronosPositionBrokerUrl := cronosPositionBrokerUrl state |}
  | Pending => state
  | FulfilledNull => state
  end.

(** The dispatch of the action ends in an exception of the reducer. *)
Definition reducer_throws (action : Action) : bool :=
  match action with
  | FulfilledNull => true
  | _ => false
  end.

(** The store after a sequence of dispatched actions. *)
Definition dispatch_all (state : ConfigState) (actions : list Action)
  : ConfigState :=
  fold_left reducer actions state.

(** States that the store can be in: the initial one and every state
    obtained from it by dispatching actions that satisfy [allowed]. *)
Inductive reachable (allowed : Action -> Prop) : ConfigState -> Prop :=
| reachable_initial : reachable allowed initialState
| reachable_dispatch (state : ConfigState) (action : Action) :
    reachable allowed state ->
    allowed action ->
    reachable allowed (reducer state action).

(** Any action of the thunk. *)
Definition any_action (action : Action) : Prop := True.



(** All nine fields of the state are truthy. *)
Definition all_fields_truthy (state : ConfigState) : bool :=
  Js.truthy_ostring (cronosApiBase state) &&
  Js.truthy_ostring (cronosFullNode state) &&
  Js.truthy_ostring (cronosRpc state) &&
  Js.truthy_onumber (cronosChainId state) &&
  Js.truthy_onumber (cronosTestNetChainId state) &&
  Js.truthy_ostring (mosaicApiBaseUrl state) &&
  Js.truthy_ostring (cronosLabsUrl state) &&
  Js.truthy_ostring (cronosExplorerUrl state) &&
  Js.truthy_ostring (cronosPositionBrokerUrl state).


End ConfigSlice.

Import ConfigSlice.

(** ** lib/globals.ts

    Every accessor starts from [store.getState().config]; here the
    state is its argument. *)

Module Globals.

Definition getConfig (config : ConfigState) : ConfigState := config.

Definition getCronosApiBase (config : ConfigState) : option string :=
  cronosApiBase config.

Definition getCronosRpc (config : ConfigState) : option string :=
  cronosRpc config.

Definition getCronosChainId (config : ConfigState) : option Z :=
  cronosChainId config.

Definition getMosaicApiBase (config : ConfigState) : option string :=
  mosaicApiBaseUrl config.

Definition getCronosLabsUrl (config : ConfigState) : option string :=
  cronosLabsUrl config.

Definition getCronosExplorerUrl (config : ConfigState) : option string :=
  cronosExplorerUrl config.

Definition getCronosPositionBrokerUrl (config : ConfigState)
  : option string :=
  cronosPositionBrokerUrl config.

Definition isConfigLoaded (config : ConfigState) : bool := loaded config.

Definition requireCronosApiBase (config : ConfigState) : Result string :=
  if negb (loaded config) then
    Throw "Config not loaded yet. Ensure config is loaded before calling this function."
  else
    match cronosApiBase config with
    | Some url =>
        if negb (Js.truthy_string url)
        then Throw "cronosApiBase is not configured"
        else Return url
    | None => Throw "cronosApiBase is not configured"
    end.

Definition requireCronosRpc (config : ConfigState) : Result string :=
  if negb (loaded config) then Throw "Config not loaded yet"
  else
    match cronosRpc config with
    | Some url =>
        if negb (Js.truthy_string url)
        then Throw "cronosRpc is not configured"
        else Return url
    | None => Throw "cronosRpc is not configured"
    end.

Definition requireCronosChainId (config : ConfigState) : Result Z :=
  if negb (loaded config) then Throw "Config not loaded yet"
  else
    match cronosChainId config with
    | None => Throw "cronosChainId is not configured"
    | Some id => Return id
    end.

Definition cronosTestNetChainId (config : ConfigState) : Result Z :=
  if negb (loaded config) then Throw "Config not loaded yet"
  else
    match ConfigSlice.cronosTestNetChainId config with
    | None => Throw "cronosChainId is not configured"
    | Some id => Return id
    end.

(** The result is the state object itself: [config as
    Required<RuntimeConfig>] is a cast, not a copy. *)
Definition requireConfig (config : ConfigState) : Result ConfigState :=
  if negb (loaded config) then Throw "Config not loaded yet"
  else if negb (Js.truthy_ostring (cronosApiBase config)) ||
          negb (Js.truthy_ostring (cronosRpc config)) ||
          negb (Js.truthy_onumber (cronosChainId config)) ||
          negb (Js.truthy_onumber
                  (ConfigSlice.cronosTestNetChainId config)) ||
          negb (Js.truthy_ostring (mosaicApiBaseUrl config)) ||
          negb (Js.truthy_ostring (cronosLabsUrl config)) ||
          negb (Js.truthy_ostring (cronosExplorerUrl config))
  then Throw "Config is incomplete"
  else Return config.

End Globals.

(** The three kinds of accessor failure, told apart by their message. *)
Definition not_loaded_error {A : Type} (r : Result A) : bool :=
  match r with
  | Throw msg => String.prefix "Config not loaded yet" msg
  | Return _ => false
  end.

Definition not_configured_error {A : Type} (r : Result A) : bool :=
  match r with
  | Throw msg => Js.includes msg " is not configured"
  | Return _ => false
  end.

Definition incomplete_error {A : Type} (r : Result A) : bool :=
  match r with
  | Throw msg => String.eqb msg "Config is incomplete"
  | Return _ => false
  end.

(** The error message of [r] names the field [field]. *)
Definition error_names {A : Type} (r : Result A) (field : string) : bool :=
  match r with
  | Throw msg => Js.includes msg field
  | Return _ => false
  end.

(** ** hooks/useCronosConfig *)

Module CronosConfig.

(** The object that the hook returns. *)
Record t : Type := Build {
  cronosApiBase : string;
  cronosFullNode : string;
  cronosRpc : string;
  cronosChainId : Z;
  cronosTestNetChainId : Z;
  mosaicApiBaseUrl : string;
  cronosLabsUrl : string;
  cronosExplorerUrl : string;
  cronosPositionBrokerUrl : string;
  loaded : bool;
  error : option string
}.

End CronosConfig.

Definition useCronosConfig (config : ConfigState) : CronosConfig.t :=
  {| CronosConfig.cronosApiBase := Js.or_string (cronosApiBase config) "";
     CronosConfig.cronosFullNode := Js.or_string (cronosFullNode config) "";
     CronosConfig.cronosRpc := Js.or_string (cronosRpc config) "";
     CronosConfig.cronosChainId := Js.or_number (cronosChainId config) 25;
     CronosConfig.cronosTestNetChainId :=
       Js.or_number (cronosTestNetChainId config) 250;
     CronosConfig.mosaicApiBaseUrl :=
       Js.or_string (mosaicApiBaseUrl config) "";
     CronosConfig.cronosLabsUrl := Js.or_string (cronosLabsUrl config) "";
     CronosConfig.cronosExplorerUrl :=
       Js.or_string (cronosExplorerUrl config) "";
     CronosConfig.cronosPositionBrokerUrl :=
       Js.or_string (cronosPositionBrokerUrl config) "";
     CronosConfig.loaded := loaded config;
     CronosConfig.error := error config |}.

(** ** providers.tsx *)

(** One entry of [supportedChains]. *)
Record Chain : Type := mkChain {
  chain_id : Z;
  chain_name : string;
  chain_network : string;
  currency_name : string;
  currency_symbol : string;
  currency_decimals : Z;
  rpcUrls_default_http : list string;
  blockExplorers_default_name : string;
  blockExplorers_default_url : string
}.

(** The [config] prop of [PrivyProvider]. *)
Record PrivyConfig : Type := mkPrivyConfig {
  loginMethods : list string;
  appearance_theme : string;
  appearance_accentColor : string;
  appearance_logo : string;
  embeddedWallets_ethereum_createOnLogin : string;
  supportedChains : list Chain
}.

(** What a component renders.  [Children] stands for the page tree that
    [Providers] receives; it is mounted only where a component returns
    it. *)
Inductive View : Type :=
| Null
| Children
| Fragment (child : View)
| Div (text : list string)
| ReduxProvider (child : View)
| PrivyProvider (appId : string) (clientId : option string)
    (config : PrivyConfig) (child : View)
| CopilotKit (runtimeUrl : string) (showDevConsole : bool) (agent : string)
    (publicApiKey : option string) (child : View).

(** [ConfigGate]: [loaded] and [error] are the two [useSelector]
    reads.  Its effect, dispatching [loadConfig()] after the first
    render, is the source of the actions of [reducer]. *)
Definition ConfigGate (config : ConfigState) (children : View) : View :=
  if negb (loaded config) then Null
  else
    match error config with
    | Some msg =>
        if Js.truthy_string msg
        then Div ["Failed to load config: "; msg]
        else Fragment children
    | None => Fragment children
    end.

Definition PrivyProviderWithConfig (state : ConfigState) (children : View)
    (appId : string) (clientId copilotApiKey : option string) : View :=
  let config := useCronosConfig state in
  PrivyProvider appId clientId
    {| loginMethods := ["email"; "wallet"; "sms"];
       appearance_theme := "light";
       appearance_accentColor := "#9333ea";
       appearance_logo := "https://cronos.org/favicon.ico";
       embeddedWallets_ethereum_createOnLogin := "users-without-wallets";
       supportedChains :=
         [ {| chain_id := CronosConfig.cronosChainId config;
              chain_name := "Cronos";
              chain_network := "cronos";
              currency_name := "CRO";
              currency_symbol := "CRO";
              currency_decimals := 18;
              rpcUrls_default_http := [CronosConfig.cronosLabsUrl config];
              blockExplorers_default_name := "Cronos Explorer";
              blockExplorers_default_url :=
                CronosConfig.cronosExplorerUrl config |} ] |}
    (CopilotKit "/api/copilotkit" false "a2a_chat" copilotApiKey
       (ConfigGate state children)).

(** [process.env] as far as [Providers] reads it. *)
Record Env : Type := mkEnv {
  NEXT_PUBLIC_PRIVY_APP_ID : option string;
  NEXT_PUBLIC_PRIVY_CLIENT_ID : option string;
  NEXT_PUBLIC_COPILOTKIT_API_KEY : option string
}.

Definition Providers (env : Env) (state : ConfigState) (children : View)
  : Result View :=
  match NEXT_PUBLIC_PRIVY_APP_ID env with
  | Some appId =>
      if negb (Js.truthy_string appId)
      then Throw "NEXT_PUBLIC_PRIVY_APP_ID is not set. Please add it to your .env.local file."
      else Return (ReduxProvider
                     (PrivyProviderWithConfig state children appId
                        (NEXT_PUBLIC_PRIVY_CLIENT_ID env)
                        (NEXT_PUBLIC_COPILOTKIT_API_KEY env)))
  | None =>
      Throw "NEXT_PUBLIC_PRIVY_APP_ID is not set. Please add it to your .env.local file."
  end.

(** The page tree is mounted somewhere in the view. *)
Fixpoint mounts_children (v : View) : bool :=
  match v with
  | Null => false
  | Children => true
  | Fragment child => mounts_children child
  | Div _ => false
  | ReduxProvider child => mounts_children child
  | PrivyProvider _ _ _ child => mounts_children child
  | CopilotKit _ _ _ _ child => mounts_children child
  end.

(** The chains with which an authentication provider is set up
    somewhere in the view; empty when no such provider is mounted. *)
Fixpoint auth_provider_chains (v : View) : list Chain :=
  match v with
  | Null => []
  | Children => []
  | Fragment child => auth_provider_chains child
  | Div _ => []
  | ReduxProvider child => auth_provider_chains child
  | PrivyProvider _ _ config child =>
      supportedChains config ++ auth_provider_chains child
  | CopilotKit _ _ _ _ child => auth_provider_chains child
  end.

(** The chat runtime is mounted somewhere in the view. *)
Fixpoint mounts_chat_runtime (v : View) : bool :=
  match v with
  | Null => false
  | Children => false
  | Fragment child => mounts_chat_runtime child
  | Div _ => false
  | ReduxProvider child => mounts_chat_runtime child
  | PrivyProvider _ _ _ child => mounts_chat_runtime child
  | CopilotKit _ _ _ _ _ => true
  end.

(** The view of a [Result], [Null] when rendering threw. *)
Definition rendered (r : Result View) : View :=
  match r with
  | Return v => v
  | Throw _ => Null
  end.

(** ** Sample data *)

(** The document of the end-to-end scenario of the specification. *)
Definition sample_config : RuntimeConfig.t :=
  {| RuntimeConfig.cronosApiBase := "https://api.example";
     RuntimeConfig.cronosFullNode := "https://fullnode.example";
     RuntimeConfig.cronosRpc := "https://rpc.example";
     RuntimeConfig.cronosChainId := 25;
     RuntimeConfig.cronosTestNetChainId := 338;
     RuntimeConfig.mosaicApiBaseUrl := "https://mosaic.example";
     RuntimeConfig.cronosLabsUrl := "https://labs.example";
     RuntimeConfig.cronosExplorerUrl := "https://explorer.example";
     RuntimeConfig.cronosPositionBrokerUrl := "https://broker.example" |}.

Definition sample_payload : Payload.t := Payload.of_config sample_config.

(** The same document without its [cronosRpc] entry. *)
Definition payload_without_rpc : Payload.t :=
  {| Payload.cronosApiBase := Payload.cronosApiBase sample_payload;
     Payload.cronosFullNode := Payload.cronosFullNode sample_payload;
     Payload.cronosRpc := None;
     Payload.cronosChainId := Payload.cronosChainId sample_payload;
     Payload.cronosTestNetChainId :=
       Payload.cronosTestNetChainId sample_payload;
     Payload.mosaicApiBaseUrl := Payload.mosaicApiBaseUrl sample_payload;
     Payload.cronosLabsUrl := Payload.cronosLabsUrl sample_payload;
     Payload.cronosExplorerUrl := Payload.cronosExplorerUrl sample_payload;
     Payload.cronosPositionBrokerUrl :=
       Payload.cronosPositionBrokerUrl sample_payload |}.

(** The same document without its [cronosFullNode] entry. *)
Definition payload_without_full_node : Payload.t :=
  {| Payload.cronosApiBase := Payload.cronosApiBase sample_payload;
     Payload.cronosFullNode := None;
     Payload.cronosRpc := Payload.cronosRpc sample_payload;
     Payload.cronosChainId := Payload.cronosChainId sample_payload;
     Payload.cronosTestNetChainId :=
       Payload.cronosTestNetChainId sample_payload;
     Payload.mosaicApiBaseUrl := Payload.mosaicApiBaseUrl sample_payload;
     Payload.cronosLabsUrl := Payload.cronosLabsUrl sample_payload;
     Payload.cronosExplorerUrl := Payload.cronosExplorerUrl sample_payload;
     Payload.cronosPositionBrokerUrl :=
       Payload.cronosPositionBrokerUrl sample_payload |}.

(** The same document with an empty [cronosApiBase] and without its
    [cronosTestNetChainId] entry. *)
Definition payload_with_empty_api_base : Payload.t :=
  {| Payload.cronosApiBase := Some "";
     Payload.cronosFullNode := Payload.cronosFullNode sample_payload;
     Payload.cronosRpc := Payload.cronosRpc sample_payload;
     Payload.cronosChainId := Payload.cronosChainId sample_payload;
     Payload.cronosTestNetChainId := None;
     Payload.mosaicApiBaseUrl := Payload.mosaicApiBaseUrl sample_payload;
     Payload.cronosLabsUrl := Payload.cronosLabsUrl sample_payload;
     Payload.cronosExplorerUrl := Payload.cronosExplorerUrl sample_payload;
     Payload.cronosPositionBrokerUrl :=
       Payload.cronosPositionBrokerUrl sample_payload |}.

(** The store after a successful load of the sample document. *)
Definition loaded_ok : ConfigState :=
  reducer initialState (Fulfilled sample_payload).

Definition network_down : SerializedError :=
  {| message := Some "network down" |}.

Definition sample_env : Env :=
  {| NEXT_PUBLIC_PRIVY_APP_ID := Some "privy-app";
     NEXT_PUBLIC_PRIVY_CLIENT_ID := None;
     NEXT_PUBLIC_COPILOTKIT_API_KEY := None |}.

(** The chain that [PrivyProviderWithConfig] declares for a result of
    the hook. *)
Definition chain_of (config : CronosConfig.t) : Chain :=
  {| chain_id := CronosConfig.cronosChainId config;
     chain_name := "Cronos";
     chain_network := "cronos";
     currency_name := "CRO";
     currency_symbol := "CRO";
     currency_decimals := 18;
     rpcUrls_default_http := [CronosConfig.cronosLabsUrl config];
     blockExplorers_default_name := "Cronos Explorer";
     blockExplorers_default_url := CronosConfig.cronosExplorerUrl config |}.

(** What the hook reports when every field takes its default. *)
Definition default_cronos_config : CronosConfig.t :=
  {| CronosConfig.cronosApiBase := "";
     CronosConfig.cronosFullNode := "";
     CronosConfig.cronosRpc := "";
     CronosConfig.cronosChainId := 25;
     CronosConfig.cronosTestNetChainId := 250;
     CronosConfig.mosaicApiBaseUrl := "";
     CronosConfig.cronosLabsUrl := "";
     CronosConfig.cronosExplorerUrl := "";
     CronosConfig.cronosPositionBrokerUrl := "";
     CronosConfig.loaded := false;
     CronosConfig.error := None |}.

(** The same document with chain id 0. *)
Definition payload_with_zero_chain_id : Payload.t :=
  {| Payload.cronosApiBase := Payload.cronosApiBase sample_payload;
     Payload.cronosFullNode := Payload.cronosFullNode sample_payload;
     Payload.cronosRpc := Payload.cronosRpc sample_payload;
     Payload.cronosChainId := Some 0;
     Payload.cronosTestNetChainId :=
       Payload.cronosTestNetChainId sample_payload;
     Payload.mosaicApiBaseUrl := Payload.mosaicApiBaseUrl sample_payload;
     Payload.cronosLabsUrl := Payload.cronosLabsUrl sample_payload;
     Payload.cronosExplorerUrl := Payload.cronosExplorerUrl sample_payload;
     Payload.cronosPositionBrokerUrl :=
       Payload.cronosPositionBrokerUrl sample_payload |}.

(** ** Closed form of a run *)

(** The nine configuration fields of a state, as an object. *)
Definition fields_of (state : ConfigState) : Payload.t :=
  {| Payload.cronosApiBase := cronosApiBase state;
     Payload.cronosFullNode := cronosFullNode state;
     Payload.cronosRpc := cronosRpc state;
     Payload.cronosChainId := cronosChainId state;
     Payload.cronosTestNetChainId := ConfigSlice.cronosTestNetChainId state;
     Payload.mosaicApiBaseUrl := mosaicApiBaseUrl state;
     Payload.cronosLabsUrl := cronosLabsUrl state;
     Payload.cronosExplorerUrl := cronosExplorerUrl state;
     Payload.cronosPositionBrokerUrl := cronosPositionBrokerUrl state |}.

(** The payload of the last fulfilled action of a run, if any. *)
Fixpoint last_fulfilled (actions : list Action) : option Payload.t :=
  match actions with
  | [] => None
  | action :: rest =>
      match last_fulfilled rest with
      | Some payload => Some payload
      | None =>
          match action with
          | Fulfilled payload => Some payload
          | _ => None
          end
      end
  end.

(** The error of the last rejected action of a run, if any. *)
Fixpoint last_rejected (actions : list Action) : option SerializedError :=
  match actions with
  | [] => None
  | action :: rest =>
      match last_rejected rest with
      | Some err => Some err
      | None =>
          match action with
          | Rejected err => Some err
          | _ => None
          end
      end
  end.

(** The action completes the load in the store: it is rejected, or
    fulfilled with a payload that the reducer can read. *)
Definition is_completion (action : Action) : bool :=
  match action with
  | Pending => false
  | Fulfilled _ => true
  | Rejected _ => true
  | FulfilledNull => false
  end.

(** ** app/providers.tsx

    The provider tree without a store: the chain is written out and
    the page is mounted directly below the chat runtime. *)

Module AppProviders.

(** The [config] prop that this file passes to [PrivyProvider]. *)
Record PrivyConfig : Type := mkPrivyConfig {
  embeddedWallets_ethereum_createOnLogin : string;
  embeddedWallets_showWalletUIs : bool;
  supportedChains : list Chain
}.

Inductive View : Type :=
| Children
| PrivyProvider (appId : string) (clientId : option string)
    (config : PrivyConfig) (child : View)
| CopilotKit (runtimeUrl : string) (showDevConsole : bool) (agent : string)
    (publicApiKey : option string) (child : View).

Definition Providers (env : Env) (children : View) : Result View :=
  match NEXT_PUBLIC_PRIVY_APP_ID env with
  | Some appId =>
      if negb (Js.truthy_string appId)
      then Throw "NEXT_PUBLIC_PRIVY_APP_ID is not set. Please add it to your .env.local file."
      else
        Return
          (PrivyProvider appId (NEXT_PUBLIC_PRIVY_CLIENT_ID env)
             {| embeddedWallets_ethereum_createOnLogin := "off";
                embeddedWallets_showWalletUIs := false;
                supportedChains :=
                  [ {| chain_id := 25;
                       chain_name := "Cronos";
                       chain_network := "cronos";
                       currency_name := "CRO";
                       currency_symbol := "CRO";
                       currency_decimals := 18;
                       rpcUrls_default_http := ["https://evm.cronos.org"];
                       blockExplorers_default_name := "Cronos Explorer";
                       blockExplorers_default_url :=
                         "https://cronoscan.com" |} ] |}
             (CopilotKit "/api/copilotkit" false "a2a_chat"
                (NEXT_PUBLIC_COPILOTKIT_API_KEY env) children))
  | None =>
      Throw "NEXT_PUBLIC_PRIVY_APP_ID is not set. Please add it to your .env.local file."
  end.

(** The page tree is mounted somewhere in the view. *)
Fixpoint mounts_children (v : View) : bool :=
  match v with
  | Children => true
  | PrivyProvider _ _ _ child => mounts_children child
  | CopilotKit _ _ _ _ child => mounts_children child
  end.

(** The chains of the authentication providers of the view. *)
Fixpoint auth_provider_chains (v : View) : list Chain :=
  match v with
  | Children => []
  | PrivyProvider _ _ config child =>
      supportedChains config ++ auth_provider_chains child
  | CopilotKit _ _ _ _ child => auth_provider_chains child
  end.

End AppProviders.

(** * Properties *)

(** Unfolds the accessors of [lib/globals.ts]. *)
Ltac unfold_accessors :=
  unfold Globals.isConfigLoaded, Globals.requireCronosApiBase,
    Globals.requireCronosRpc, Globals.requireCronosChainId,
    Globals.cronosTestNetChainId, Globals.requireConfig.

(** ** The reducer *)

Section Reducer.

Variable state : ConfigState.

Lemma reducer_loaded (action : Action) :
  loaded state = true -> loaded (reducer state action) = true.
Proof. destruct action; simpl; auto. Qed.

Lemma reducer_completion_loaded (action : Action) :
  action <> Pending -> reducer_throws action = false ->
  loaded (reducer state action) = true.
Proof. destruct action; simpl; congruence. Qed.

Lemma reducer_unloaded (action : Action) :
  loaded (reducer state action) = false ->
  reducer state action = state /\ loaded state = false.
Proof. destruct action; simpl; intros H; try discriminate; auto. Qed.

Lemma or_string_truthy (x : option string) (d : string) :
  Js.truthy_string d = true -> Js.truthy_string (Js.or_string x d) = true.
Proof.
  intros Hd. destruct x as [s|]; simpl; auto.
  destruct (Js.truthy_string s) eqn:Hs; auto.
Qed.

Lemma rejected_error_truthy (err : SerializedError) :
  Js.truthy_ostring (error (reducer state (Rejected err))) = true.
Proof. simpl. apply or_string_truthy. reflexivity. Qed.

Lemma reducer_error_truthy (action : Action) :
  Js.truthy_ostring (error state) = true ->
  Js.truthy_ostring (error (reducer state action)) = true.
Proof.
  destruct action; simpl; auto.
  intros _. apply or_string_truthy. reflexivity.
Qed.

End Reducer.

Lemma dispatch_all_app (state : ConfigState) (pre post : list Action) :
  dispatch_all state (pre ++ post) = dispatch_all (dispatch_all state pre) post.
Proof. unfold dispatch_all. apply fold_left_app. Qed.

Lemma dispatch_all_loaded (actions : list Action) :
  forall state, loaded state = true ->
  loaded (dispatch_all state actions) = true.
Proof.
  induction actions as [|a rest IH]; intros state H; simpl; auto.
  apply IH. apply reducer_loaded. exact H.
Qed.

Lemma dispatch_all_error_truthy (actions : list Action) :
  forall state, Js.truthy_ostring (error state) = true ->
  Js.truthy_ostring (error (dispatch_all state actions)) = true.
Proof.
  induction actions as [|a rest IH]; intros state H; simpl; auto.
  apply IH. apply reducer_error_truthy. exact H.
Qed.

Lemma dispatch_all_reachable (actions : list Action) :
  forall state, reachable any_action state ->
  reachable any_action (dispatch_all state actions).
Proof.
  induction actions as [|a rest IH]; intros state H; simpl; auto.
  apply IH. apply reachable_dispatch; [exact H | exact I].
Qed.

(** Before the first completion the store still holds its initial
    state: the reducer writes fields only together with [loaded]. *)
Lemma reachable_unloaded (allowed : Action -> Prop) (state : ConfigState) :
  reachable allowed state -> loaded state = false -> state = initialState.
Proof.
  induction 1 as [|state action Hreach IH Hallowed]; intros Hl; auto.
  destruct (reducer_unloaded state action Hl) as [-> Hl']. auto.
Qed.

(** C9: the [loaded] flag is monotone.  In a run from the initial
    state, once a prefix of the dispatched actions has set [loaded],
    every longer run still has [loaded = true]; and no single reducer
    step, whatever its action, turns [loaded] from true to false. *)
Theorem loaded_is_monotone (pre post : list Action) :
  loaded (dispatch_all initialState pre) = true ->
  loaded (dispatch_all initialState (pre ++ post)) = true /\
  (forall action,
      loaded (reducer (dispatch_all initialState pre) action) = true).
Proof.
  intros H. split.
  - rewrite dispatch_all_app. apply dispatch_all_loaded. exact H.
  - intros action. apply reducer_loaded. exact H.
Qed.

Lemma loaded_is_monotone_witness :
  loaded (dispatch_all initialState
            ([Pending; Fulfilled sample_payload] ++
             [Rejected network_down; Pending; Fulfilled payload_without_rpc]))
  = true.
Proof.
  apply (loaded_is_monotone [Pending; Fulfilled sample_payload]
           [Rejected network_down; Pending; Fulfilled payload_without_rpc]).
  reflexivity.
Defined.

(** ** The state invariant *)






(** ** Accessors before the load *)

Lemma requiring_not_loaded (state : ConfigState) :
  loaded state = false ->
  not_loaded_error (Globals.requireCronosApiBase state) = true /\
  not_loaded_error (Globals.requireCronosRpc state) = true /\
  not_loaded_error (Globals.requireCronosChainId state) = true /\
  not_loaded_error (Globals.cronosTestNetChainId state) = true /\
  not_loaded_error (Globals.requireConfig state) = true.
Proof.
  intros H. unfold_accessors. rewrite H. simpl. repeat split; reflexivity.
Qed.

(** C8: in every state that the store can be in with [loaded = false],
    each plain accessor returns [undefined] (the plain accessors have no
    throwing path at all: they are total projections), and each
    requiring accessor throws the "Config not loaded yet" error. *)
Theorem accessors_before_load (state : ConfigState) :
  reachable any_action state ->
  loaded state = false ->
  (Globals.getCronosApiBase state = None /\
   Globals.getCronosRpc state = None /\
   Globals.getCronosChainId state = None /\
   Globals.getMosaicApiBase state = None /\
   Globals.getCronosLabsUrl state = None /\
   Globals.getCronosExplorerUrl state = None /\
   Globals.getCronosPositionBrokerUrl state = None) /\
  (not_loaded_error (Globals.requireCronosApiBase state) = true /\
   not_loaded_error (Globals.requireCronosRpc state) = true /\
   not_loaded_error (Globals.requireCronosChainId state) = true /\
   not_loaded_error (Globals.cronosTestNetChainId state) = true /\
   not_loaded_error (Globals.requireConfig state) = true).
Proof.
  intros Hreach Hl. split.
  - rewrite (reachable_unloaded any_action state Hreach Hl).
    repeat split; reflexivity.
  - apply requiring_not_loaded. exact Hl.
Qed.

Lemma accessors_before_load_witness :
  Globals.getCronosRpc (reducer initialState Pending) = None /\
  not_loaded_error (Globals.requireCronosRpc (reducer initialState Pending))
  = true.
Proof.
  destruct (accessors_before_load (reducer initialState Pending))
    as [[_ [Hget _]] [_ [Hreq _]]].
  - apply reachable_dispatch; [constructor | exact I].
  - reflexivity.
  - split; [exact Hget | exact Hreq].
Defined.

(** ** Round trip of a successful load *)

Lemma truthy_config_fields (c : RuntimeConfig.t) :
  RuntimeConfig.truthy c = true ->
  Js.truthy_string (RuntimeConfig.cronosApiBase c) = true /\
  Js.truthy_string (RuntimeConfig.cronosFullNode c) = true /\
  Js.truthy_string (RuntimeConfig.cronosRpc c) = true /\
  Js.truthy_number (RuntimeConfig.cronosChainId c) = true /\
  Js.truthy_number (RuntimeConfig.cronosTestNetChainId c) = true /\
  Js.truthy_string (RuntimeConfig.mosaicApiBaseUrl c) = true /\
  Js.truthy_string (RuntimeConfig.cronosLabsUrl c) = true /\
  Js.truthy_string (RuntimeConfig.cronosExplorerUrl c) = true /\
  Js.truthy_string (RuntimeConfig.cronosPositionBrokerUrl c) = true.
Proof.
  unfold RuntimeConfig.truthy. intros H.
  repeat (apply andb_prop in H; destruct H as [H ?]).
  repeat split; assumption.
Qed.

(** C7, as stated, fails: the fulfilled case does not touch [error].
    When the full sample document is loaded after an earlier
    rejection, [isConfigLoaded] is true and [requireConfig] returns,
    yet the error of the rejection is still in the store. *)
Lemma fulfilled_keeps_stored_error :
  let state := reducer initialState (Rejected network_down) in
  let state' := reducer state (Fulfilled (Payload.of_config sample_config)) in
  reachable any_action state /\
  RuntimeConfig.truthy sample_config = true /\
  Globals.isConfigLoaded state' = true /\
  Globals.requireConfig state' = Return state' /\
  error state' = Some "network down" /\
  error state' <> None.
Proof.
  simpl. repeat split.
  - apply (reachable_dispatch any_action initialState
             (Rejected network_down)); [constructor | exact I].
  - discriminate.
Qed.

(** C7, amended: after a fulfilled step whose payload is a full
    [RuntimeConfig] with truthy fields, taken from any state,
    [isConfigLoaded] is true, each requiring accessor returns its
    payload field unchanged, [requireConfig] returns the state, whose
    nine fields are those of the payload, and [error] is what it was
    before the step: absent after a step from the initial state or
    from any other state without an error, still stored after an
    earlier rejection. *)
Theorem fulfilled_round_trip (state : ConfigState) (c : RuntimeConfig.t) :
  RuntimeConfig.truthy c = true ->
  let state' := reducer state (Fulfilled (Payload.of_config c)) in
  Globals.isConfigLoaded state' = true /\
  error state' = error state /\
  Globals.requireCronosApiBase state' =
    Return (RuntimeConfig.cronosApiBase c) /\
  Globals.requireCronosRpc state' = Return (RuntimeConfig.cronosRpc c) /\
  Globals.requireCronosChainId state' =
    Return (RuntimeConfig.cronosChainId c) /\
  Globals.cronosTestNetChainId state' =
    Return (RuntimeConfig.cronosTestNetChainId c) /\
  Globals.requireConfig state' = Return state' /\
  cronosApiBase state' = Some (RuntimeConfig.cronosApiBase c) /\
  cronosFullNode state' = Some (RuntimeConfig.cronosFullNode c) /\
  cronosRpc state' = Some (RuntimeConfig.cronosRpc c) /\
  cronosChainId state' = Some (RuntimeConfig.cronosChainId c) /\
  ConfigSlice.cronosTestNetChainId state' =
    Some (RuntimeConfig.cronosTestNetChainId c) /\
  mosaicApiBaseUrl state' = Some (RuntimeConfig.mosaicApiBaseUrl c) /\
  cronosLabsUrl state' = Some (RuntimeConfig.cronosLabsUrl c) /\
  cronosExplorerUrl state' = Some (RuntimeConfig.cronosExplorerUrl c) /\
  cronosPositionBrokerUrl state' =
    Some (RuntimeConfig.cronosPositionBrokerUrl c).
Proof.
  intros Ht.
  destruct (truthy_config_fields c Ht)
    as (H1 & H2 & H3 & H4 & H5 & H6 & H7 & H8 & H9).
  unfold_accessors. simpl. rewrite H1, H3, H4, H5, H6, H7, H8. simpl.
  repeat split; reflexivity.
Qed.

Lemma fulfilled_round_trip_witness :
  error loaded_ok = None /\
  Globals.requireCronosRpc loaded_ok = Return "https://rpc.example" /\
  Globals.cronosTestNetChainId loaded_ok = Return 338 /\
  Globals.requireConfig loaded_ok = Return loaded_ok.
Proof.
  destruct (fulfilled_round_trip initialState sample_config)
    as (_ & Herr & _ & Hrpc & _ & Htest & Hall & _).
  - reflexivity.
  - split; [exact Herr|].
    split; [exact Hrpc | split; [exact Htest | exact Hall]].
Defined.

(** ** The aggregate accessor *)

Lemma requireConfig_all_truthy (state : ConfigState) :
  loaded state = true ->
  all_fields_truthy state = true ->
  Globals.requireConfig state = Return state.
Proof.
  unfold all_fields_truthy, Globals.requireConfig. intros Hl H.
  repeat (apply andb_prop in H; destruct H as [H ?]).
  rewrite Hl. simpl.
  repeat match goal with E : _ = true |- _ => rewrite E; clear E end.
  reflexivity.
Qed.

Lemma requireConfig_checked_falsy (state : ConfigState) :
  loaded state = true ->
  Js.truthy_ostring (cronosApiBase state) = false \/
  Js.truthy_ostring (cronosRpc state) = false \/
  Js.truthy_onumber (cronosChainId state) = false \/
  Js.truthy_onumber (ConfigSlice.cronosTestNetChainId state) = false \/
  Js.truthy_ostring (mosaicApiBaseUrl state) = false \/
  Js.truthy_ostring (cronosLabsUrl state) = false \/
  Js.truthy_ostring (cronosExplorerUrl state) = false ->
  Globals.requireConfig state = Throw "Config is incomplete".
Proof.
  unfold Globals.requireConfig. intros Hl H. rewrite Hl. simpl.
  destruct (Js.truthy_ostring (cronosApiBase state)),
    (Js.truthy_ostring (cronosRpc state)),
    (Js.truthy_onumber (cronosChainId state)),
    (Js.truthy_onumber (ConfigSlice.cronosTestNetChainId state)),
    (Js.truthy_ostring (mosaicApiBaseUrl state)),
    (Js.truthy_ostring (cronosLabsUrl state)),
    (Js.truthy_ostring (cronosExplorerUrl state));
    simpl; try reflexivity;
    repeat (destruct H as [H|H]; [discriminate H|]); discriminate H.
Qed.

(** C1: [requireConfig] does not look at [cronosFullNode] (nor at
    [cronosPositionBrokerUrl]).  After a load whose document lacks
    [cronosFullNode] the store is loaded, the field is absent, and
    [requireConfig] returns the state as a [Required<RuntimeConfig>]
    instead of throwing "Config is incomplete". *)
Theorem requireConfig_misses_cronosFullNode :
  let state := reducer initialState (Fulfilled payload_without_full_node) in
  loaded state = true /\
  cronosFullNode state = None /\
  all_fields_truthy state = false /\
  incomplete_error (Globals.requireConfig state) = false /\
  Globals.requireConfig state = Return state.
Proof. simpl. repeat split. Qed.

(** ** The requiring accessors, case by case *)

(** C5, as stated, fails.  An empty [cronosApiBase] is present, yet
    [requireCronosApiBase] throws instead of returning it; and the
    error of [requireConfig] for a missing [cronosRpc] is the aggregate
    "Config is incomplete", which names no field. *)
Lemma requiring_accessors_differ :
  let state := reducer initialState (Fulfilled payload_with_empty_api_base) in
  let state' := reducer initialState (Fulfilled payload_without_rpc) in
  loaded state = true /\
  cronosApiBase state = Some "" /\
  Globals.requireCronosApiBase state <> Return "" /\
  loaded state' = true /\
  cronosRpc state' = None /\
  Globals.requireConfig state' = Throw "Config is incomplete" /\
  error_names (Globals.requireConfig state') "cronosRpc" = false.
Proof. simpl. repeat split. discriminate. Qed.

(** C5, amended.  Every requiring accessor throws "Config not loaded
    yet" while [loaded] is false.  When [loaded] is true:
    [requireCronosApiBase] and [requireCronosRpc] throw "<field> is not
    configured" when their field is falsy (absent or empty) and return
    it otherwise; [requireCronosChainId] throws "cronosChainId is not
    configured" when its field is absent and returns it otherwise (also
    when it is 0); [cronosTestNetChainId] throws a "not configured"
    error when its field is absent and returns it otherwise;
    [requireConfig] throws the aggregate "Config is incomplete" when
    one of the seven fields it checks is falsy and returns the state
    when all nine fields are truthy. *)
Theorem requiring_accessors_by_case (state : ConfigState) :
  (loaded state = false ->
   not_loaded_error (Globals.requireCronosApiBase state) = true /\
   not_loaded_error (Globals.requireCronosRpc state) = true /\
   not_loaded_error (Globals.requireCronosChainId state) = true /\
   not_loaded_error (Globals.cronosTestNetChainId state) = true /\
   not_loaded_error (Globals.requireConfig state) = true) /\
  (loaded state = true ->
   (Js.truthy_ostring (cronosApiBase state) = false ->
    Globals.requireCronosApiBase state =
      Throw "cronosApiBase is not configured") /\
   (forall url, cronosApiBase state = Some url ->
    Js.truthy_string url = true ->
    Globals.requireCronosApiBase state = Return url) /\
   (Js.truthy_ostring (cronosRpc state) = false ->
    Globals.requireCronosRpc state = Throw "cronosRpc is not configured") /\
   (forall url, cronosRpc state = Some url ->
    Js.truthy_string url = true ->
    Globals.requireCronosRpc state = Return url) /\
   (cronosChainId state = None ->
    Globals.requireCronosChainId state =
      Throw "cronosChainId is not configured") /\
   (forall id, cronosChainId state = Some id ->
    Globals.requireCronosChainId state = Return id) /\
   (ConfigSlice.cronosTestNetChainId state = None ->
    not_configured_error (Globals.cronosTestNetChainId state) = true) /\
   (forall id, ConfigSlice.cronosTestNetChainId state = Some id ->
    Globals.cronosTestNetChainId state = Return id) /\
   (Js.truthy_ostring (cronosApiBase state) = false \/
    Js.truthy_ostring (cronosRpc state) = false \/
    Js.truthy_onumber (cronosChainId state) = false \/
    Js.truthy_onumber (ConfigSlice.cronosTestNetChainId state) = false \/
    Js.truthy_ostring (mosaicApiBaseUrl state) = false \/
    Js.truthy_ostring (cronosLabsUrl state) = false \/
    Js.truthy_ostring (cronosExplorerUrl state) = false ->
    Globals.requireConfig state = Throw "Config is incomplete") /\
   (all_fields_truthy state = true ->
    Globals.requireConfig state = Return state)).
Proof.
  split.
  - apply requiring_not_loaded.
  - intros Hl.
    split; [|split; [|split; [|split; [|split; [|split; [|split;
      [|split; [|split]]]]]]]].
    + unfold Globals.requireCronosApiBase. rewrite Hl. simpl.
      destruct (cronosApiBase state) as [url|]; simpl; [|reflexivity].
      intros ->. reflexivity.
    + unfold Globals.requireCronosApiBase. rewrite Hl. simpl.
      intros url -> ->. reflexivity.
    + unfold Globals.requireCronosRpc. rewrite Hl. simpl.
      destruct (cronosRpc state) as [url|]; simpl; [|reflexivity].
      intros ->. reflexivity.
    + unfold Globals.requireCronosRpc. rewrite Hl. simpl.
      intros url -> ->. reflexivity.
    + unfold Globals.requireCronosChainId. rewrite Hl. simpl.
      intros ->. reflexivity.
    + unfold Globals.requireCronosChainId. rewrite Hl. simpl.
      intros id ->. reflexivity.
    + unfold Globals.cronosTestNetChainId. rewrite Hl. simpl.
      intros ->. reflexivity.
    + unfold Globals.cronosTestNetChainId. rewrite Hl. simpl.
      intros id ->. reflexivity.
    + apply requireConfig_checked_falsy. exact Hl.
    + apply requireConfig_all_truthy. exact Hl.
Qed.

Lemma requiring_accessors_by_case_witness :
  not_loaded_error (Globals.requireCronosChainId initialState) = true /\
  Globals.requireCronosRpc
    (reducer initialState (Fulfilled payload_without_rpc)) =
    Throw "cronosRpc is not configured" /\
  Globals.requireCronosApiBase
    (reducer initialState (Fulfilled payload_without_rpc)) =
    Return "https://api.example" /\
  Globals.requireConfig
    (reducer initialState (Fulfilled payload_without_rpc)) =
    Throw "Config is incomplete".
Proof.
  split; [|split; [|split]].
  - apply (proj1 (requiring_accessors_by_case initialState)). reflexivity.
  - apply (proj2 (requiring_accessors_by_case
                    (reducer initialState (Fulfilled payload_without_rpc))));
      reflexivity.
  - apply (proj2 (requiring_accessors_by_case
                    (reducer initialState (Fulfilled payload_without_rpc))));
      reflexivity.
  - apply (proj2 (requiring_accessors_by_case
                    (reducer initialState (Fulfilled payload_without_rpc)))).
    + reflexivity.
    + right. left. reflexivity.
Defined.

(** ** A rejection after a successful load *)

(** C6, as stated, fails: the rejected case has no guard.  After the
    sample document has been loaded (loaded, no error, all fields
    truthy, the gate shows the page), a rejected step stores its
    message and the gate shows the error instead of the page. *)
Lemma rejected_overwrites_loaded_ok :
  let state := reducer loaded_ok (Rejected network_down) in
  loaded loaded_ok = true /\
  error loaded_ok = None /\
  all_fields_truthy loaded_ok = true /\
  ConfigGate loaded_ok Children = Fragment Children /\
  error state = Some "network down" /\
  ConfigGate state Children = Div ["Failed to load config: "; "network down"].
Proof. simpl. repeat split. Qed.

(** C6, amended: a rejected step, also one that follows a successful
    load, keeps [loaded = true] and the nine fields as they are, and
    sets [error] to the message of the rejection, or to "Config load
    failed" when that message is absent or empty; the error is truthy,
    so the gate then renders the error line and not the page. *)
Theorem rejected_is_last_write_wins (state : ConfigState)
    (err : SerializedError) (children : View) :
  let state' := reducer state (Rejected err) in
  loaded state' = true /\
  error state' = Some (Js.or_string (message err) "Config load failed") /\
  Js.truthy_ostring (error state') = true /\
  (message err = None \/ message err = Some "" ->
   error state' = Some "Config load failed") /\
  (forall msg, message err = Some msg -> Js.truthy_string msg = true ->
   error state' = Some msg) /\
  cronosApiBase state' = cronosApiBase state /\
  cronosFullNode state' = cronosFullNode state /\
  cronosRpc state' = cronosRpc state /\
  cronosChainId state' = cronosChainId state /\
  ConfigSlice.cronosTestNetChainId state' =
    ConfigSlice.cronosTestNetChainId state /\
  mosaicApiBaseUrl state' = mosaicApiBaseUrl state /\
  cronosLabsUrl state' = cronosLabsUrl state /\
  cronosExplorerUrl state' = cronosExplorerUrl state /\
  cronosPositionBrokerUrl state' = cronosPositionBrokerUrl state /\
  ConfigGate state' children =
    Div ["Failed to load config: ";
         Js.or_string (message err) "Config load failed"] /\
  mounts_children (ConfigGate state' children) = false.
Proof.
  assert (Ht : Js.truthy_string
                 (Js.or_string (message err) "Config load failed") = true)
    by (apply or_string_truthy; reflexivity).
  simpl.
  split; [reflexivity|]. split; [reflexivity|]. split; [exact Ht|].
  split; [intros [-> | ->]; reflexivity|].
  split; [intros msg -> Hm; simpl; rewrite Hm; reflexivity|].
  do 9 (split; [reflexivity|]).
  unfold ConfigGate. simpl. rewrite Ht. split; reflexivity.
Qed.

Lemma rejected_is_last_write_wins_witness :
  error (reducer loaded_ok (Rejected {| message := Some "" |})) =
    Some "Config load failed" /\
  error (reducer loaded_ok (Rejected network_down)) = Some "network down".
Proof.
  split.
  - destruct (rejected_is_last_write_wins loaded_ok
                {| message := Some "" |} Children)
      as (_ & _ & _ & Hfallback & _).
    apply Hfallback. right. reflexivity.
  - destruct (rejected_is_last_write_wins loaded_ok network_down Children)
      as (_ & _ & _ & _ & Hmessage & _).
    apply (Hmessage "network down"); reflexivity.
Defined.

(** ** The loader *)

(** C4, as stated, fails: for a response that is not [ok] the message
    that reaches the store is "Failed to load /config.json", not
    "Failed to load configuration". *)
Lemma http_failure_message_differs :
  let state :=
    reducer initialState
      (loadConfig (FetchResponds false (JsonValue sample_payload))) in
  loaded state = true /\
  error state = Some "Failed to load /config.json" /\
  error state <> Some "Failed to load configuration".
Proof. simpl. repeat split. discriminate. Qed.

(** C4, amended: when the response of the GET of /config.json is not
    [ok], the load takes the rejected path, whatever the body, and the
    message stored in the store is "Failed to load /config.json". *)
Theorem http_failure_is_rejected (state : ConfigState) (json : JsonOutcome) :
  let action := loadConfig (FetchResponds false json) in
  action = Rejected {| message := Some "Failed to load /config.json" |} /\
  loaded (reducer state action) = true /\
  error (reducer state action) = Some "Failed to load /config.json".
Proof. simpl. repeat split. Qed.

(** ** The hook *)

(** C10: for every store state, the hook replaces an absent field by
    its default (the empty string for the seven URLs, 25 for
    [cronosChainId], 250 for [cronosTestNetChainId]) and passes
    [loaded] through; the fields of its result are plain strings and
    numbers, never [undefined].  So before the load it reports exactly
    the defaults with [loaded = false], and the chain that
    [PrivyProviderWithConfig] declares then has id 25 and empty URLs. *)
Theorem useCronosConfig_defaults (state : ConfigState) :
  let config := useCronosConfig state in
  (cronosApiBase state = None -> CronosConfig.cronosApiBase config = "") /\
  (cronosFullNode state = None -> CronosConfig.cronosFullNode config = "") /\
  (cronosRpc state = None -> CronosConfig.cronosRpc config = "") /\
  (cronosChainId state = None -> CronosConfig.cronosChainId config = 25) /\
  (ConfigSlice.cronosTestNetChainId state = None ->
   CronosConfig.cronosTestNetChainId config = 250) /\
  (mosaicApiBaseUrl state = None ->
   CronosConfig.mosaicApiBaseUrl config = "") /\
  (cronosLabsUrl state = None -> CronosConfig.cronosLabsUrl config = "") /\
  (cronosExplorerUrl state = None ->
   CronosConfig.cronosExplorerUrl config = "") /\
  (cronosPositionBrokerUrl state = None ->
   CronosConfig.cronosPositionBrokerUrl config = "") /\
  CronosConfig.loaded config = loaded state /\
  (reachable any_action state -> loaded state = false ->
   config = default_cronos_config /\
   chain_id (chain_of config) = 25 /\
   rpcUrls_default_http (chain_of config) = [""] /\
   blockExplorers_default_url (chain_of config) = "").
Proof.
  simpl.
  do 9 (split; [intros ->; reflexivity|]).
  split; [reflexivity|].
  intros Hreach Hl.
  rewrite (reachable_unloaded any_action state Hreach Hl).
  repeat split.
Qed.

Lemma useCronosConfig_defaults_witness :
  CronosConfig.cronosRpc
    (useCronosConfig (reducer initialState (Fulfilled payload_without_rpc)))
  = "" /\
  useCronosConfig initialState = default_cronos_config.
Proof.
  split.
  - apply (useCronosConfig_defaults
             (reducer initialState (Fulfilled payload_without_rpc))).
    reflexivity.
  - apply (useCronosConfig_defaults initialState);
      [constructor | reflexivity].
Defined.

(** ** The gate and the provider tree *)

Lemma ConfigGate_unloaded (state : ConfigState) (children : View) :
  loaded state = false -> ConfigGate state children = Null.
Proof. unfold ConfigGate. intros ->. reflexivity. Qed.

Lemma ConfigGate_mounts_children (state : ConfigState) :
  mounts_children (ConfigGate state Children) = true ->
  loaded state = true /\ Js.truthy_ostring (error state) = false.
Proof.
  unfold ConfigGate.
  destruct (loaded state); simpl; [|discriminate].
  destruct (error state) as [msg|]; simpl; [|auto].
  destruct (Js.truthy_string msg); simpl; [discriminate|auto].
Qed.

Lemma ConfigGate_no_auth_provider (state : ConfigState) :
  auth_provider_chains (ConfigGate state Children) = [].
Proof.
  unfold ConfigGate.
  destruct (loaded state); simpl; [|reflexivity].
  destruct (error state) as [msg|]; simpl; [|reflexivity].
  destruct (Js.truthy_string msg); reflexivity.
Qed.

Lemma Providers_view (env : Env) (appId : string) (state : ConfigState)
    (children : View) :
  NEXT_PUBLIC_PRIVY_APP_ID env = Some appId ->
  Js.truthy_string appId = true ->
  Providers env state children =
  Return (ReduxProvider
            (PrivyProviderWithConfig state children appId
               (NEXT_PUBLIC_PRIVY_CLIENT_ID env)
               (NEXT_PUBLIC_COPILOTKIT_API_KEY env))).
Proof. unfold Providers. intros -> ->. reflexivity. Qed.

(** A rejection anywhere in a run leaves a truthy error at its end. *)
Lemma rejected_leaves_error (actions : list Action) :
  forall (state : ConfigState) (err : SerializedError),
  In (Rejected err) actions ->
  Js.truthy_ostring (error (dispatch_all state actions)) = true.
Proof.
  induction actions as [|a rest IH]; intros state err Hin.
  - destruct Hin.
  - destruct Hin as [-> | Hin].
    + simpl. apply dispatch_all_error_truthy. apply rejected_error_truthy.
    + simpl. apply (IH _ err). exact Hin.
Qed.

(** [loaded] is set by a completion action only. *)
Lemma loaded_needs_completion (actions : list Action) :
  forall state : ConfigState,
  loaded state = false ->
  loaded (dispatch_all state actions) = true ->
  (exists payload, In (Fulfilled payload) actions) \/
  (exists err, In (Rejected err) actions).
Proof.
  induction actions as [|a rest IH]; intros state Hl Hend.
  - simpl in Hend. congruence.
  - destruct a as [|payload|err|].
    + destruct (IH state Hl Hend) as [[payload Hin] | [err Hin]].
      * left. exists payload. right. exact Hin.
      * right. exists err. right. exact Hin.
    + left. exists payload. left. reflexivity.
    + right. exists err. left. reflexivity.
    + destruct (IH state Hl Hend) as [[payload Hin] | [err Hin]].
      * left. exists payload. right. exact Hin.
      * right. exists err. right. exact Hin.
Qed.

(** C2, as stated, fails: [ConfigGate] sits inside [PrivyProvider] and
    [CopilotKit].  In the initial state ([loaded = false]) the gate
    renders nothing, yet [Providers] already mounts the chat runtime
    and the authentication provider, the latter set up from the store
    through [useCronosConfig]: with the default chain before the load,
    with the chain of the document after it. *)
Lemma providers_mounted_before_load :
  let view := rendered (Providers sample_env initialState Children) in
  let view' := rendered (Providers sample_env loaded_ok Children) in
  loaded initialState = false /\
  ConfigGate initialState Children = Null /\
  auth_provider_chains view = [chain_of default_cronos_config] /\
  mounts_chat_runtime view = true /\
  auth_provider_chains view' = [chain_of (useCronosConfig loaded_ok)] /\
  auth_provider_chains view <> auth_provider_chains view'.
Proof. simpl. repeat split. discriminate. Qed.

(** C2, amended.  While [loaded] is false the gate renders nothing, so
    the page tree below it is not mounted.  In a run from the initial
    state the page tree is mounted only when [loaded] is true and there
    is no error, that is only after a fulfilled action has been
    dispatched and with no rejected action in the run.  The
    authentication provider and the chat runtime wrap the gate: they
    are mounted in every state, the former with the chain that
    [useCronosConfig] yields for that state. *)
Theorem gate_defers_page_tree (env : Env) (appId : string)
    (actions : list Action) :
  NEXT_PUBLIC_PRIVY_APP_ID env = Some appId ->
  Js.truthy_string appId = true ->
  let state := dispatch_all initialState actions in
  let view := rendered (Providers env state Children) in
  (loaded state = false ->
   ConfigGate state Children = Null /\ mounts_children view = false) /\
  (mounts_children view = true ->
   loaded state = true /\
   Js.truthy_ostring (error state) = false /\
   (exists payload, In (Fulfilled payload) actions) /\
   (forall err, ~ In (Rejected err) actions)) /\
  auth_provider_chains view = [chain_of (useCronosConfig state)] /\
  mounts_chat_runtime view = true.
Proof.
  intros Hid Htruthy state view.
  assert (Hview : view =
            ReduxProvider
              (PrivyProviderWithConfig state Children appId
                 (NEXT_PUBLIC_PRIVY_CLIENT_ID env)
                 (NEXT_PUBLIC_COPILOTKIT_API_KEY env))).
  { unfold view. rewrite (Providers_view env appId state Children Hid Htruthy).
    reflexivity. }
  assert (Hmount : mounts_children view =
                   mounts_children (ConfigGate state Children)).
  { rewrite Hview. reflexivity. }
  split; [|split; [|split]].
  - intros Hl. rewrite Hmount, (ConfigGate_unloaded state Children Hl).
    split; reflexivity.
  - rewrite Hmount. intros Hm.
    destruct (ConfigGate_mounts_children state Hm) as [Hl He].
    assert (Hno : forall err, ~ In (Rejected err) actions).
    { intros err Hin.
      pose proof (rejected_leaves_error actions initialState err Hin) as Ht.
      fold state in Ht. congruence. }
    split; [exact Hl|]. split; [exact He|]. split; [|exact Hno].
    destruct (loaded_needs_completion actions initialState eq_refl Hl)
      as [[payload Hin] | [err Hin]].
    + exists payload. exact Hin.
    + destruct (Hno err Hin).
  - rewrite Hview. simpl.
    rewrite ConfigGate_no_auth_provider. reflexivity.
  - rewrite Hview. reflexivity.
Qed.

Lemma gate_defers_page_tree_witness :
  mounts_children
    (rendered (Providers sample_env
                 (dispatch_all initialState [Pending]) Children)) = false /\
  auth_provider_chains
    (rendered (Providers sample_env
                 (dispatch_all initialState [Pending]) Children)) =
  [chain_of (useCronosConfig (dispatch_all initialState [Pending]))].
Proof.
  destruct (gate_defers_page_tree sample_env "privy-app" [Pending])
    as (Hunloaded & _ & Hchains & _).
  - reflexivity.
  - reflexivity.
  - split; [|exact Hchains].
    apply Hunloaded. reflexivity.
Defined.

(** ** Messages of the chain id accessors *)

(** The two chain id accessors throw the same message for a missing
    field: the one of [cronosTestNetChainId] reads "cronosChainId is not
    configured" as well. *)
Example chain_id_accessors_share_message :
  let state := reducer initialState (Fulfilled payload_with_empty_api_base) in
  loaded state = true /\
  cronosChainId state = Some 25 /\
  ConfigSlice.cronosTestNetChainId state = None /\
  Globals.cronosTestNetChainId state = Throw "cronosChainId is not configured" /\
  error_names (Globals.cronosTestNetChainId state) "cronosTestNetChainId"
  = false.
Proof. simpl. repeat split. Qed.

(** * Further properties *)

(** ** Outcomes of the loader *)

(** The load is fulfilled exactly when the response is [ok] and its
    body parses, and then the parsed value is the payload, unchanged:
    the parsed object, or [null] for the body [null].  It is rejected
    in the three other cases: with the thrown error when [fetch] or
    [res.json()] throws, with "Failed to load /config.json" when the
    response is not [ok] (the body is then not read).  A pending
    action is never the outcome. *)
Theorem loadConfig_outcomes (res : FetchOutcome) :
  (forall payload,
      loadConfig res = Fulfilled payload <->
      res = FetchResponds true (JsonValue payload)) /\
  (loadConfig res = FulfilledNull <-> res = FetchResponds true JsonNull) /\
  (forall err,
      loadConfig res = Rejected err <->
      res = FetchThrows err \/
      res = FetchResponds true (JsonThrows err) \/
      (exists json, res = FetchResponds false json /\
         err = {| message := Some "Failed to load /config.json" |})) /\
  loadConfig res <> Pending.
Proof.
  split; [|split; [|split]].
  - intros payload. split.
    + destruct res as [e | [|] [e | p |]]; simpl; intros H;
        try discriminate H.
      injection H as ->. reflexivity.
    + intros ->. reflexivity.
  - split.
    + destruct res as [e | [|] [e | p |]]; simpl; intros H;
        try discriminate H.
      reflexivity.
    + intros ->. reflexivity.
  - intros err. split.
    + destruct res as [e | [|] json]; simpl; intros H.
      * injection H as <-. left. reflexivity.
      * destruct json as [e | p |]; try discriminate H.
        injection H as <-. right. left. reflexivity.
      * injection H as <-. right. right. exists json. split; reflexivity.
    + intros [-> | [-> | [json [-> ->]]]]; reflexivity.
  - destruct res as [e | [|] [e | p |]]; simpl; discriminate.
Qed.

Lemma loadConfig_outcomes_witness :
  loadConfig (FetchResponds true (JsonValue payload_without_rpc)) =
    Fulfilled payload_without_rpc /\
  loadConfig (FetchResponds true (JsonThrows network_down)) =
    Rejected network_down.
Proof.
  destruct (loadConfig_outcomes
              (FetchResponds true (JsonValue payload_without_rpc)))
    as (Hok & _ & _ & _).
  destruct (loadConfig_outcomes
              (FetchResponds true (JsonThrows network_down)))
    as (_ & _ & Hko & _).
  split.
  - apply Hok. reflexivity.
  - apply Hko. right. left. reflexivity.
Defined.

(** After the first load the gate stays blank in one case only: the
    response is [ok] and its body is [null].  The reducer then throws
    on the fulfilled action, the store keeps its initial state and
    nothing is ever shown.  In every other case [loaded] is set: the
    gate shows the page when the load was fulfilled, and the error
    line with a non-empty message when it was rejected. *)
Theorem gate_after_first_load (res : FetchOutcome) (children : View) :
  let action := loadConfig res in
  let state := reducer initialState action in
  loaded state = negb (reducer_throws action) /\
  (ConfigGate state children = Null <-> res = FetchResponds true JsonNull) /\
  (res = FetchResponds true JsonNull ->
   reducer_throws action = true /\ state = initialState) /\
  ((exists payload, res = FetchResponds true (JsonValue payload)) ->
   ConfigGate state children = Fragment children) /\
  ((forall payload, res <> FetchResponds true (JsonValue payload)) ->
   res <> FetchResponds true JsonNull ->
   exists msg,
     Js.truthy_string msg = true /\
     error state = Some msg /\
     ConfigGate state children = Div ["Failed to load config: "; msg]).
Proof.
  assert (Hrej : forall err,
             exists msg,
               Js.truthy_string msg = true /\
               error (reducer initialState (Rejected err)) = Some msg /\
               ConfigGate (reducer initialState (Rejected err)) children =
                 Div ["Failed to load config: "; msg]).
  { intros err.
    exists (Js.or_string (message err) "Config load failed").
    assert (Ht : Js.truthy_string
                   (Js.or_string (message err) "Config load failed") = true)
      by (apply or_string_truthy; reflexivity).
    split; [exact Ht|]. split; [reflexivity|].
    unfold ConfigGate. simpl. rewrite Ht. reflexivity. }
  assert (Hcase : forall err,
             loadConfig res = Rejected err ->
             (forall payload, res <> FetchResponds true (JsonValue payload)) ->
             res <> FetchResponds true JsonNull ->
             let action := loadConfig res in
             let state := reducer initialState action in
             loaded state = negb (reducer_throws action) /\
             (ConfigGate state children = Null <->
              res = FetchResponds true JsonNull) /\
             (res = FetchResponds true JsonNull ->
              reducer_throws action = true /\ state = initialState) /\
             ((exists payload, res = FetchResponds true (JsonValue payload)) ->
              ConfigGate state children = Fragment children) /\
             ((forall payload,
                  res <> FetchResponds true (JsonValue payload)) ->
              res <> FetchResponds true JsonNull ->
              exists msg,
                Js.truthy_string msg = true /\
                error state = Some msg /\
                ConfigGate state children =
                  Div ["Failed to load config: "; msg])).
  { intros err Heq Hobj Hnull. simpl. rewrite Heq.
    destruct (Hrej err) as (msg & Ht & He & Hg).
    split; [reflexivity|].
    split; [split; [rewrite Hg; discriminate | intros H; destruct (Hnull H)]|].
    split; [intros H; destruct (Hnull H)|].
    split; [intros [payload H]; destruct (Hobj payload H)|].
    intros _ _. exists msg. auto. }
  destruct res as [e | [|] [e | p |]].
  - apply (Hcase e); [reflexivity | discriminate | discriminate].
  - apply (Hcase e); [reflexivity | discriminate | discriminate].
  - simpl. split; [reflexivity|].
    split; [split; discriminate|].
    split; [discriminate|].
    split; [reflexivity|].
    intros H. destruct (H p). reflexivity.
  - simpl. split; [reflexivity|].
    split; [split; reflexivity|].
    split; [split; reflexivity|].
    split; [intros [payload H]; discriminate H|].
    intros _ H. destruct H. reflexivity.
  - apply (Hcase {| message := Some "Failed to load /config.json" |});
      [reflexivity | discriminate | discriminate].
  - apply (Hcase {| message := Some "Failed to load /config.json" |});
      [reflexivity | discriminate | discriminate].
  - apply (Hcase {| message := Some "Failed to load /config.json" |});
      [reflexivity | discriminate | discriminate].
Qed.

Lemma gate_after_first_load_witness :
  ConfigGate
    (reducer initialState
       (loadConfig (FetchResponds true (JsonValue sample_payload))))
    Children = Fragment Children /\
  ConfigGate
    (reducer initialState (loadConfig (FetchResponds true JsonNull)))
    Children = Null /\
  exists msg,
    error (reducer initialState (loadConfig (FetchThrows network_down)))
    = Some msg.
Proof.
  split; [|split].
  - destruct (gate_after_first_load
                (FetchResponds true (JsonValue sample_payload)) Children)
      as (_ & _ & _ & Hpage & _).
    apply Hpage. exists sample_payload. reflexivity.
  - destruct (gate_after_first_load (FetchResponds true JsonNull) Children)
      as (_ & Hblank & _).
    apply Hblank. reflexivity.
  - destruct (gate_after_first_load (FetchThrows network_down) Children)
      as (_ & _ & _ & _ & Hfail).
    destruct Hfail as (msg & _ & He & _).
    + intros payload. discriminate.
    + discriminate.
    + exists msg. exact He.
Defined.

(** ** States of the store and what the gate shows *)

Lemma reachable_error_truthy (state : ConfigState) :
  reachable any_action state ->
  error state = None \/
  (loaded state = true /\ Js.truthy_ostring (error state) = true).
Proof.
  induction 1 as [|state action Hreach IH _].
  - left. reflexivity.
  - destruct action as [|payload|err|].
    + exact IH.
    + destruct IH as [IH | [_ IH]]; [left; exact IH|].
      right. split; [reflexivity | exact IH].
    + right. split; [reflexivity | apply rejected_error_truthy].
    + exact IH.
Qed.

(** In every state that the store can be in, the error is absent or
    non-empty, and present only together with [loaded].  So the three
    renderings of the gate follow the three states of the machine:
    nothing before the load, the page when loaded without an error, the
    error line whenever an error is stored; the page is never shown
    over a stored error. *)
Theorem gate_follows_store (state : ConfigState) (children : View) :
  reachable any_action state ->
  (loaded state = false /\ error state = None /\
   ConfigGate state children = Null) \/
  (loaded state = true /\ error state = None /\
   ConfigGate state children = Fragment children) \/
  (loaded state = true /\
   exists msg,
     error state = Some msg /\ Js.truthy_string msg = true /\
     ConfigGate state children = Div ["Failed to load config: "; msg]).
Proof.
  intros Hreach.
  destruct (loaded state) eqn:Hl.
  - right. destruct (reachable_error_truthy state Hreach) as [He | [_ He]].
    + left. split; [reflexivity|]. split; [exact He|].
      unfold ConfigGate. rewrite Hl, He. reflexivity.
    + right. split; [reflexivity|].
      destruct (error state) as [msg|] eqn:Hmsg; [|discriminate He].
      exists msg. simpl in He. split; [reflexivity|]. split; [exact He|].
      unfold ConfigGate. rewrite Hl, Hmsg. simpl. rewrite He. reflexivity.
  - left. rewrite (reachable_unloaded any_action state Hreach Hl).
    repeat split.
Qed.

Lemma gate_follows_store_witness :
  (loaded loaded_ok = false /\ error loaded_ok = None /\
   ConfigGate loaded_ok Children = Null) \/
  (loaded loaded_ok = true /\ error loaded_ok = None /\
   ConfigGate loaded_ok Children = Fragment Children) \/
  (loaded loaded_ok = true /\
   exists msg,
     error loaded_ok = Some msg /\ Js.truthy_string msg = true /\
     ConfigGate loaded_ok Children = Div ["Failed to load config: "; msg]).
Proof.
  apply (gate_follows_store loaded_ok Children).
  apply (reachable_dispatch any_action initialState
           (Fulfilled sample_payload)); [constructor | exact I].
Defined.

(** The error is sticky: no action clears it.  Once a rejected action
    has been dispatched, whatever was dispatched before and whatever
    follows (also a fulfilled action with a complete document), the
    gate shows an error line and never the page. *)
Theorem rejection_is_never_cleared (state : ConfigState)
    (pre post : list Action) (err : SerializedError) (children : View) :
  let state' := dispatch_all state (pre ++ Rejected err :: post) in
  loaded state' = true /\
  mounts_children (ConfigGate state' children) = false /\
  exists msg,
    error state' = Some msg /\
    ConfigGate state' children = Div ["Failed to load config: "; msg].
Proof.
  intros state'.
  assert (Ht : Js.truthy_ostring (error state') = true).
  { apply (rejected_leaves_error _ state err).
    apply in_or_app. right. left. reflexivity. }
  assert (Hl : loaded state' = true).
  { unfold state'. rewrite dispatch_all_app. simpl.
    apply dispatch_all_loaded. reflexivity. }
  assert (Hg : exists msg,
             error state' = Some msg /\
             ConfigGate state' children =
               Div ["Failed to load config: "; msg]).
  { destruct (error state') as [msg|] eqn:He; [|discriminate Ht].
    exists msg. split; [reflexivity|].
    unfold ConfigGate. rewrite Hl, He. simpl in *. rewrite Ht.
    reflexivity. }
  split; [exact Hl|]. split; [|exact Hg].
  destruct Hg as (msg & _ & ->). reflexivity.
Qed.

(** ** Runs in closed form *)

Lemma fields_of_fulfilled (state : ConfigState) (payload : Payload.t) :
  fields_of (reducer state (Fulfilled payload)) = payload.
Proof. destruct payload. reflexivity. Qed.

(** The store after a run is last-write-wins in each part: [loaded] is
    set as soon as the run has a completion, the error is that of the
    last rejected action (with the fallback for an absent or empty
    message) and the nine fields are those of the last fulfilled
    payload that is an object; a part for which the run has no such
    action keeps its value from the start.  A fulfilled action with a
    [null] payload, on which the reducer throws, is neither a
    completion nor a write: it counts for nothing. *)
Theorem run_in_closed_form (actions : list Action) :
  forall state : ConfigState,
  let state' := dispatch_all state actions in
  loaded state' = loaded state || existsb is_completion actions /\
  error state' =
    match last_rejected actions with
    | Some err => Some (Js.or_string (message err) "Config load failed")
    | None => error state
    end /\
  fields_of state' =
    match last_fulfilled actions with
    | Some payload => payload
    | None => fields_of state
    end.
Proof.
  induction actions as [|action rest IH]; intros state.
  - simpl. rewrite orb_false_r. repeat split.
  - simpl. destruct (IH (reducer state action)) as (Hl & He & Hf).
    split; [|split].
    + rewrite Hl. destruct action; simpl; try reflexivity;
        rewrite orb_true_r; reflexivity.
    + rewrite He. destruct (last_rejected rest); [reflexivity|].
      destruct action; reflexivity.
    + rewrite Hf. destruct (last_fulfilled rest); [reflexivity|].
      destruct action; try reflexivity.
      apply fields_of_fulfilled.
Qed.

Lemma state_eta (s t : ConfigState) :
  loaded s = loaded t -> error s = error t -> fields_of s = fields_of t ->
  s = t.
Proof.
  destruct s, t. unfold fields_of. simpl.
  intros -> -> H. injection H as -> -> -> -> -> -> -> -> ->. reflexivity.
Qed.

(** A fulfilled and a rejected completion commute: exchanging two
    adjacent ones anywhere in a run does not change the store at the
    end of the run. *)
Theorem completions_commute (state : ConfigState) (pre post : list Action)
    (payload : Payload.t) (err : SerializedError) :
  dispatch_all state (pre ++ Fulfilled payload :: Rejected err :: post) =
  dispatch_all state (pre ++ Rejected err :: Fulfilled payload :: post).
Proof.
  rewrite !dispatch_all_app. reflexivity.
Qed.

(** Two runs from the same state that have the same last fulfilled
    object payload and the same last rejected error, and of which
    either both or none have a completion, end in the same store;
    fulfilled actions with a [null] payload are not counted. *)
Theorem runs_agree (state : ConfigState) (run run' : list Action) :
  existsb is_completion run = existsb is_completion run' ->
  last_rejected run = last_rejected run' ->
  last_fulfilled run = last_fulfilled run' ->
  dispatch_all state run = dispatch_all state run'.
Proof.
  intros Hc Hr Hf.
  destruct (run_in_closed_form run state) as (Hl & He & Hp).
  destruct (run_in_closed_form run' state) as (Hl' & He' & Hp').
  apply state_eta.
  - rewrite Hl, Hl', Hc. reflexivity.
  - rewrite He, He', Hr. reflexivity.
  - rewrite Hp, Hp', Hf. reflexivity.
Qed.

Lemma runs_agree_witness :
  dispatch_all initialState
    [Fulfilled payload_without_rpc; Pending; Rejected network_down;
     Fulfilled sample_payload; FulfilledNull] =
  dispatch_all initialState
    [FulfilledNull; Pending; Fulfilled sample_payload;
     Rejected network_down].
Proof.
  apply (runs_agree initialState
           [Fulfilled payload_without_rpc; Pending; Rejected network_down;
            Fulfilled sample_payload; FulfilledNull]
           [FulfilledNull; Pending; Fulfilled sample_payload;
            Rejected network_down]);
    reflexivity.
Defined.

(** ** Agreement between the accessors *)

(** A requiring accessor returns a value exactly when the store is
    loaded and the plain accessor of the same field returns that value
    (for the two URLs: a non-empty one); and it throws the "Config not
    loaded yet" error exactly when [isConfigLoaded] is false. *)
Theorem require_agrees_with_get (state : ConfigState) :
  (forall url,
      Globals.requireCronosApiBase state = Return url <->
      Globals.isConfigLoaded state = true /\
      Globals.getCronosApiBase state = Some url /\
      Js.truthy_string url = true) /\
  (forall url,
      Globals.requireCronosRpc state = Return url <->
      Globals.isConfigLoaded state = true /\
      Globals.getCronosRpc state = Some url /\
      Js.truthy_string url = true) /\
  (forall id,
      Globals.requireCronosChainId state = Return id <->
      Globals.isConfigLoaded state = true /\
      Globals.getCronosChainId state = Some id) /\
  not_loaded_error (Globals.requireCronosApiBase state) =
    negb (Globals.isConfigLoaded state) /\
  not_loaded_error (Globals.requireCronosRpc state) =
    negb (Globals.isConfigLoaded state) /\
  not_loaded_error (Globals.requireCronosChainId state) =
    negb (Globals.isConfigLoaded state) /\
  not_loaded_error (Globals.cronosTestNetChainId state) =
    negb (Globals.isConfigLoaded state) /\
  not_loaded_error (Globals.requireConfig state) =
    negb (Globals.isConfigLoaded state).
Proof.
  unfold_accessors.
  unfold Globals.getCronosApiBase, Globals.getCronosRpc,
    Globals.getCronosChainId.
  destruct (loaded state); simpl.
  - split; [|split; [|split]].
    + intros url. destruct (cronosApiBase state) as [v|]; simpl.
      * destruct (Js.truthy_string v) eqn:Hv; simpl; split.
        -- intros H. injection H as ->. auto.
        -- intros (_ & H & _). injection H as ->. reflexivity.
        -- discriminate.
        -- intros (_ & H & Ht). injection H as ->. congruence.
      * split; [discriminate | intros (_ & H & _); discriminate H].
    + intros url. destruct (cronosRpc state) as [v|]; simpl.
      * destruct (Js.truthy_string v) eqn:Hv; simpl; split.
        -- intros H. injection H as ->. auto.
        -- intros (_ & H & _). injection H as ->. reflexivity.
        -- discriminate.
        -- intros (_ & H & Ht). injection H as ->. congruence.
      * split; [discriminate | intros (_ & H & _); discriminate H].
    + intros id. destruct (cronosChainId state) as [v|]; simpl.
      * split; [intros H; injection H as ->; auto|].
        intros (_ & H). injection H as ->. reflexivity.
      * split; [discriminate | intros (_ & H); discriminate H].
    + destruct (cronosApiBase state) as [v|]; simpl;
        [destruct (Js.truthy_string v)|]; simpl;
        destruct (cronosRpc state) as [w|]; simpl;
        try destruct (Js.truthy_string w); simpl;
        destruct (cronosChainId state); simpl;
        destruct (ConfigSlice.cronosTestNetChainId state); simpl;
        repeat split;
        match goal with
        | |- not_loaded_error (if ?c then _ else _) = _ =>
            destruct c; reflexivity
        end.
  - split; [|split; [|split]].
    + intros url. split; [discriminate | intros (H & _); discriminate H].
    + intros url. split; [discriminate | intros (H & _); discriminate H].
    + intros id. split; [discriminate | intros (H & _); discriminate H].
    + repeat split.
Qed.

Lemma require_agrees_with_get_witness :
  Globals.requireCronosApiBase loaded_ok = Return "https://api.example".
Proof.
  apply (require_agrees_with_get loaded_ok). repeat split.
Defined.

(** When [requireConfig] returns, it returns the very state that
    [getConfig] returns, the store is loaded, and each of the four
    field accessors returns as well: the two URLs as stored and
    non-empty, the two chain ids as stored and not 0; the three other
    URLs that it checks are non-empty. *)
Theorem requireConfig_implies_fields (state result : ConfigState) :
  Globals.requireConfig state = Return result ->
  result = Globals.getConfig state /\
  Globals.isConfigLoaded state = true /\
  (exists url, Globals.requireCronosApiBase state = Return url /\
               Globals.getCronosApiBase state = Some url /\
               url <> "") /\
  (exists url, Globals.requireCronosRpc state = Return url /\
               Globals.getCronosRpc state = Some url /\ url <> "") /\
  (exists id, Globals.requireCronosChainId state = Return id /\
              Globals.getCronosChainId state = Some id /\ id <> 0) /\
  (exists id, Globals.cronosTestNetChainId state = Return id /\
              ConfigSlice.cronosTestNetChainId state = Some id /\
              id <> 0) /\
  Js.truthy_ostring (Globals.getMosaicApiBase state) = true /\
  Js.truthy_ostring (Globals.getCronosLabsUrl state) = true /\
  Js.truthy_ostring (Globals.getCronosExplorerUrl state) = true.
Proof.
  unfold_accessors.
  unfold Globals.getConfig, Globals.getCronosApiBase, Globals.getCronosRpc,
    Globals.getCronosChainId, Globals.getMosaicApiBase,
    Globals.getCronosLabsUrl, Globals.getCronosExplorerUrl.
  destruct (loaded state); simpl; [|discriminate].
  destruct (cronosApiBase state) as [[|a u]|]; simpl; try discriminate.
  destruct (cronosRpc state) as [[|b v]|]; simpl; try discriminate.
  destruct (cronosChainId state) as [id|]; simpl; try discriminate.
  destruct (Js.truthy_number id) eqn:Hid; simpl; try discriminate.
  destruct (ConfigSlice.cronosTestNetChainId state) as [id'|]; simpl;
    try discriminate.
  destruct (Js.truthy_number id') eqn:Hid'; simpl; try discriminate.
  destruct (Js.truthy_ostring (mosaicApiBaseUrl state)); simpl;
    try discriminate.
  destruct (Js.truthy_ostring (cronosLabsUrl state)); simpl;
    try discriminate.
  destruct (Js.truthy_ostring (cronosExplorerUrl state)); simpl;
    try discriminate.
  intros H. injection H as <-.
  assert (Hz : forall n, Js.truthy_number n = true -> n <> 0).
  { intros n Hn ->. discriminate Hn. }
  split; [reflexivity|]. split; [reflexivity|].
  split; [eexists; repeat split; discriminate|].
  split; [eexists; repeat split; discriminate|].
  split; [exists id; repeat split; apply Hz; exact Hid|].
  split; [exists id'; repeat split; apply Hz; exact Hid'|].
  repeat split.
Qed.

Lemma requireConfig_implies_fields_witness :
  loaded_ok = Globals.getConfig loaded_ok /\
  Globals.isConfigLoaded loaded_ok = true.
Proof.
  destruct (requireConfig_implies_fields loaded_ok loaded_ok)
    as (Hsame & Hloaded & _).
  - reflexivity.
  - split; [exact Hsame | exact Hloaded].
Defined.

(** ** Chain id 0 *)

(** A stored chain id 0 is read in three ways: [requireCronosChainId]
    returns it (its test is [== null]), [requireConfig] throws "Config
    is incomplete" (its test is falsiness), and [useCronosConfig]
    reports 25 in its place. *)
Theorem zero_chain_id_three_ways (state : ConfigState) :
  loaded state = true ->
  cronosChainId state = Some 0 ->
  Globals.requireCronosChainId state = Return 0 /\
  Globals.requireConfig state = Throw "Config is incomplete" /\
  CronosConfig.cronosChainId (useCronosConfig state) = 25.
Proof.
  intros Hl Hz. split; [|split].
  - unfold Globals.requireCronosChainId. rewrite Hl, Hz. reflexivity.
  - apply requireConfig_checked_falsy; [exact Hl|].
    right. right. left. rewrite Hz. reflexivity.
  - simpl. rewrite Hz. reflexivity.
Qed.

Lemma zero_chain_id_three_ways_witness :
  Globals.requireCronosChainId
    (reducer initialState (Fulfilled payload_with_zero_chain_id)) = Return 0 /\
  Globals.requireConfig
    (reducer initialState (Fulfilled payload_with_zero_chain_id)) =
    Throw "Config is incomplete" /\
  CronosConfig.cronosChainId
    (useCronosConfig
       (reducer initialState (Fulfilled payload_with_zero_chain_id))) = 25.
Proof.
  apply (zero_chain_id_three_ways
           (reducer initialState (Fulfilled payload_with_zero_chain_id)));
    reflexivity.
Defined.

(** ** What the hook passes through *)

(** The hook never reports chain id 0, for either chain.  A stored URL
    is reported as it is (an absent one as the empty string), a stored
    chain id other than 0 as it is, and [error] as it is. *)
Theorem useCronosConfig_passes_through (state : ConfigState) :
  let config := useCronosConfig state in
  CronosConfig.cronosChainId config <> 0 /\
  CronosConfig.cronosTestNetChainId config <> 0 /\
  (forall url, cronosApiBase state = Some url ->
               CronosConfig.cronosApiBase config = url) /\
  (forall url, cronosFullNode state = Some url ->
               CronosConfig.cronosFullNode config = url) /\
  (forall url, cronosRpc state = Some url ->
               CronosConfig.cronosRpc config = url) /\
  (forall url, mosaicApiBaseUrl state = Some url ->
               CronosConfig.mosaicApiBaseUrl config = url) /\
  (forall url, cronosLabsUrl state = Some url ->
               CronosConfig.cronosLabsUrl config = url) /\
  (forall url, cronosExplorerUrl state = Some url ->
               CronosConfig.cronosExplorerUrl config = url) /\
  (forall url, cronosPositionBrokerUrl state = Some url ->
               CronosConfig.cronosPositionBrokerUrl config = url) /\
  (forall id, cronosChainId state = Some id -> id <> 0 ->
              CronosConfig.cronosChainId config = id) /\
  (forall id, ConfigSlice.cronosTestNetChainId state = Some id -> id <> 0 ->
              CronosConfig.cronosTestNetChainId config = id) /\
  CronosConfig.error config = error state.
Proof.
  assert (Hnum : forall x d, d <> 0 -> Js.or_number x d <> 0).
  { intros [n|] d Hd; simpl; [|exact Hd].
    unfold Js.truthy_number. destruct (Z.eqb_spec n 0); simpl; assumption. }
  assert (Hstr : forall x url, x = Some url -> Js.or_string x "" = url).
  { intros x url ->. simpl. destruct url; reflexivity. }
  assert (Hid : forall x id d, x = Some id -> id <> 0 ->
                               Js.or_number x d = id).
  { intros x id d -> Hne. simpl. unfold Js.truthy_number.
    destruct (Z.eqb_spec id 0); [contradiction | reflexivity]. }
  simpl.
  split; [apply Hnum; discriminate|].
  split; [apply Hnum; discriminate|].
  do 7 (split; [apply Hstr|]).
  split; [intros id; apply Hid|].
  split; [intros id; apply Hid|].
  reflexivity.
Qed.

Lemma useCronosConfig_passes_through_witness :
  CronosConfig.cronosLabsUrl (useCronosConfig loaded_ok) =
    "https://labs.example" /\
  CronosConfig.cronosTestNetChainId (useCronosConfig loaded_ok) = 338.
Proof.
  destruct (useCronosConfig_passes_through loaded_ok)
    as (_ & _ & _ & _ & _ & _ & Hlabs & _ & _ & _ & Htest & _).
  split.
  - apply Hlabs. reflexivity.
  - apply Htest; [reflexivity | discriminate].
Defined.

(** ** After a failed first load *)

(** When the first completion is a rejection, whatever its error, the
    store counts as loaded with nothing configured: [isConfigLoaded] is
    true, the plain accessors return [undefined], the field accessors
    throw their "not configured" error (not "Config not loaded yet"),
    [requireConfig] throws "Config is incomplete", and the hook reports
    its defaults together with the error. *)
Theorem accessors_after_failed_load (err : SerializedError) :
  let state := reducer initialState (Rejected err) in
  Globals.isConfigLoaded state = true /\
  fields_of state = fields_of initialState /\
  Globals.requireCronosApiBase state =
    Throw "cronosApiBase is not configured" /\
  Globals.requireCronosRpc state = Throw "cronosRpc is not configured" /\
  Globals.requireCronosChainId state =
    Throw "cronosChainId is not configured" /\
  not_configured_error (Globals.cronosTestNetChainId state) = true /\
  Globals.requireConfig state = Throw "Config is incomplete" /\
  CronosConfig.cronosChainId (useCronosConfig state) = 25 /\
  CronosConfig.cronosLabsUrl (useCronosConfig state) = "" /\
  CronosConfig.loaded (useCronosConfig state) = true /\
  CronosConfig.error (useCronosConfig state) =
    Some (Js.or_string (message err) "Config load failed").
Proof. simpl. repeat split. Qed.

(** ** From the document to the authentication provider *)

(** When the first load is fulfilled with a document whose fields are
    all truthy, [Providers] mounts the page, and the chain of the
    authentication provider carries the document's [cronosChainId] as
    its id, its [cronosLabsUrl] as the single RPC URL and its
    [cronosExplorerUrl] as the explorer URL. *)
Theorem document_reaches_auth_provider (env : Env) (appId : string)
    (c : RuntimeConfig.t) :
  NEXT_PUBLIC_PRIVY_APP_ID env = Some appId ->
  Js.truthy_string appId = true ->
  RuntimeConfig.truthy c = true ->
  let state :=
    reducer initialState
      (loadConfig (FetchResponds true (JsonValue (Payload.of_config c)))) in
  let view := rendered (Providers env state Children) in
  mounts_children view = true /\
  exists chain,
    auth_provider_chains view = [chain] /\
    chain_id chain = RuntimeConfig.cronosChainId c /\
    rpcUrls_default_http chain = [RuntimeConfig.cronosLabsUrl c] /\
    blockExplorers_default_url chain = RuntimeConfig.cronosExplorerUrl c.
Proof.
  intros Hid Happ Ht state view.
  destruct (truthy_config_fields c Ht)
    as (_ & _ & _ & H4 & _ & _ & H7 & H8 & _).
  unfold view. rewrite (Providers_view env appId state Children Hid Happ).
  split; [reflexivity|].
  eexists. split; [reflexivity|]. simpl.
  rewrite H4, H7, H8. repeat split.
Qed.

Lemma document_reaches_auth_provider_witness :
  mounts_children
    (rendered
       (Providers sample_env
          (reducer initialState
             (loadConfig
                (FetchResponds true
                   (JsonValue (Payload.of_config sample_config)))))
          Children)) = true.
Proof.
  destruct (document_reaches_auth_provider sample_env "privy-app"
              sample_config) as (Hmount & _).
  - reflexivity.
  - reflexivity.
  - reflexivity.
  - exact Hmount.
Defined.

(** ** The two provider trees *)

(** The tree of [app/providers.tsx] and the gated tree throw under the
    same condition, [NEXT_PUBLIC_PRIVY_APP_ID] unset or empty, and with
    the same message.  When it renders, the former mounts the page at
    once, whatever the store holds, below a provider for chain 25 with
    the written-out URLs; the id is the one that the gated tree
    declares before its load. *)
Theorem provider_trees_compared (env : Env) (state : ConfigState) :
  (forall msg,
      AppProviders.Providers env AppProviders.Children = Throw msg <->
      Providers env state Children = Throw msg) /\
  (forall view,
      AppProviders.Providers env AppProviders.Children = Return view ->
      AppProviders.mounts_children view = true /\
      exists chain,
        AppProviders.auth_provider_chains view = [chain] /\
        chain_id chain =
          chain_id (chain_of (useCronosConfig initialState)) /\
        rpcUrls_default_http chain = ["https://evm.cronos.org"] /\
        blockExplorers_default_url chain = "https://cronoscan.com").
Proof.
  unfold AppProviders.Providers, Providers.
  destruct (NEXT_PUBLIC_PRIVY_APP_ID env) as [appId|].
  - destruct (Js.truthy_string appId); simpl.
    + split.
      * intros msg. split; discriminate.
      * intros view H. injection H as <-. split; [reflexivity|].
        eexists. repeat split.
    + split.
      * intros msg. split; intros H; injection H as <-; reflexivity.
      * intros view H. discriminate H.
  - split.
    + intros msg. split; intros H; injection H as <-; reflexivity.
    + intros view H. discriminate H.
Qed.

Lemma provider_trees_compared_witness :
  exists view,
    AppProviders.Providers sample_env AppProviders.Children = Return view /\
    AppProviders.mounts_children view = true.
Proof.
  eexists. split; [reflexivity|].
  apply (proj2 (provider_trees_compared sample_env initialState)).
  reflexivity.
Defined.
